(** * Boundary fetching from the World Bank ArcGIS feature service

    A shallow embedding of [notebooks/boundaries.py]: the three functions
    [get_boundaries], [get_admin1_boundaries] and [get_admin2_boundaries],
    together with the fragments of Python, requests, pandas and shapely
    that they call. *)

From Stdlib Require Import ZArith Ascii String List Lia.
From stdpp Require Import base decidable option list strings pretty gmap.

Set Warnings "-register-all".
Local Open Scope string_scope.
Local Open Scope list_scope.

(** ** Python values

    What [result.json()] can return.  A [dict] keeps its insertion order,
    so it is an association list; a well-formed one has no repeated key
    (the decoder keeps one entry per key), and every lookup below takes the
    first entry.  JSON numbers are taken on the integers. *)

Inductive pyval : Type :=
| PyNone
| PyBool (b : bool)
| PyNum (z : Z)
| PyStr (s : string)
| PyList (xs : list pyval)
| PyDict (kvs : list (string * pyval)).

(** ** Exceptions

    The classes that matter for the three [except] clauses, with the
    subclass relation of Python and of [requests.exceptions]. *)

Inductive exn_class : Type :=
| BaseException
| KeyboardInterrupt
| Exception
| TypeError
| ValueError
| KeyError
| IndexError
| RequestException
| Timeout
| HTTPError
| ConnectionError
| JSONDecodeError.

Definition parent (c : exn_class) : option exn_class :=
  match c with
  | BaseException => None
  | KeyboardInterrupt => Some BaseException
  | Exception => Some BaseException
  | TypeError | ValueError => Some Exception
  | KeyError | IndexError => Some Exception
  | RequestException => Some Exception
  | Timeout | HTTPError | ConnectionError => Some RequestException
  | JSONDecodeError => Some RequestException
  end.

Definition exn_class_eqb (c d : exn_class) : bool :=
  match c, d with
  | BaseException, BaseException | KeyboardInterrupt, KeyboardInterrupt
  | Exception, Exception | TypeError, TypeError | ValueError, ValueError
  | KeyError, KeyError | IndexError, IndexError
  | RequestException, RequestException | Timeout, Timeout
  | HTTPError, HTTPError | ConnectionError, ConnectionError
  | JSONDecodeError, JSONDecodeError => true
  | _, _ => false
  end.

(** [issubclass c d], climbing at most three levels (the depth of the
    hierarchy above). *)
Fixpoint issubclass_fuel (n : nat) (c d : exn_class) : bool :=
  exn_class_eqb c d ||
  match n with
  | O => false
  | S n' => match parent c with
            | Some p => issubclass_fuel n' p d
            | None => false
            end
  end.

Definition issubclass : exn_class -> exn_class -> bool := issubclass_fuel 3.

(** A raised exception: its class and [str(e)]. *)
Record exn : Type := mkExn { exn_cls : exn_class; exn_msg : string }.

Definition isinstance (e : exn) (c : exn_class) : bool :=
  issubclass (exn_cls e) c.

(** ** Request URLs *)

(** [''.join(parts)] *)
Definition join (parts : list string) : string :=
  fold_right String.append "" parts.

Definition service_root : string :=
  "https://services.arcgis.com/iQ1dY19aHwbSDYIF/ArcGIS/rest/services/".

Definition country_layer : string :=
  "World_Bank_Official_Boundaries_World_Country_Polygons_(Very_High_Definition)/FeatureServer/0/query?".

Definition admin1_layer : string :=
  "World_Bank_Global_Administrative_Divisions/FeatureServer/2/query?".

Definition admin2_layer : string :=
  "World_Bank_Global_Administrative_Divisions/FeatureServer/3/query?".

Definition query_tail : string :=
  "&f=pjson&returnGeometry=true&outFields=*&outSR=4326".

(** The f-string [f"where={attr}='{val}'&f=pjson&..."]. *)
Definition where_query (attr val : string) : string :=
  "where=" +:+ attr +:+ "='" +:+ val +:+ "'" +:+ query_tail.

Definition boundaries_url (attr val : string) : string :=
  join [service_root; country_layer; where_query attr val].

Definition admin1_url (iso_code : string) : string :=
  join [service_root; admin1_layer; where_query "ISO_A3" iso_code].

Definition admin2_url (iso_code : string) : string :=
  join [service_root; admin2_layer; where_query "ISO_A3" iso_code].

(** ** Results of a Python expression: a value or a raised exception *)

Inductive result (A : Type) : Type :=
| Ok (a : A)
| Raise (e : exn).
Arguments Ok {A} a.
Arguments Raise {A} e.

#[global] Instance result_ret : MRet result := fun A a => Ok a.
#[global] Instance result_bind : MBind result := fun A B k r =>
  match r with
  | Ok a => k a
  | Raise e => Raise e
  end.

Definition raise {A} (c : exn_class) (msg : string) : result A :=
  Raise (mkExn c msg).

(** Running [f] over a list in order, stopping at the first exception:
    the shape of a [for] loop that appends to a list. *)
Fixpoint for_each {A B} (f : A -> result B) (xs : list A) : result (list B) :=
  match xs with
  | [] => Ok []
  | x :: xs' => y ← f x; ys ← for_each f xs'; Ok (y :: ys)
  end.

(** ** Geometry (shapely)

    Coordinates are integers and a geometry is the finite set of unit
    cells [[i,i+1] x [j,j+1]] whose centre lies inside it; this is exact
    for rings with axis-parallel edges, and [area] then counts cells. *)

Abbreviation cell := (Z * Z)%type.
Abbreviation geom := (gset (Z * Z)).

(** The edges of a ring, the closing edge from the last vertex back to the
    first included (shapely closes an open ring itself; on a closed ring
    this edge is a point and crosses nothing). *)
Definition ring_edges (pts : list cell) : list (cell * cell) :=
  match pts with
  | [] => []
  | p :: rest => combine pts (rest ++ [p])
  end.

(** Does the edge cross the horizontal line through the centre of the cell
    [(i, j)] strictly to the right of that centre? *)
Definition crosses_right (c : cell) (e : cell * cell) : bool :=
  let '(i, j) := c in
  let '((x1, y1), (x2, y2)) := e in
  let dy := (y2 - y1)%Z in
  let side := ((2 * x1 - 2 * i - 1) * dy + (2 * j + 1 - 2 * y1) * (x2 - x1))%Z in
  if ((y1 <=? j) && (j <? y2))%Z then (0 <? side)%Z
  else if ((y2 <=? j) && (j <? y1))%Z then (side <? 0)%Z
  else false.

(** Even-odd rule. *)
Definition inside (pts : list cell) (c : cell) : bool :=
  Nat.odd (length (filter (fun e => crosses_right c e = true) (ring_edges pts))).

Definition zmin (zs : list Z) : Z := fold_right Z.min (hd 0%Z zs) zs.
Definition zmax (zs : list Z) : Z := fold_right Z.max (hd 0%Z zs) zs.

(** The integers [lo, lo+1, ..., hi-1]. *)
Definition zrange (lo hi : Z) : list Z :=
  map (fun k => (lo + Z.of_nat k)%Z) (seq 0 (Z.to_nat (hi - lo))).

Definition bounding_cells (pts : list cell) : list cell :=
  let xs := map fst pts in
  let ys := map snd pts in
  i ← zrange (zmin xs) (zmax xs);
  j ← zrange (zmin ys) (zmax ys);
  [(i, j)].

Definition region (pts : list cell) : geom :=
  list_to_set (filter (fun c => inside pts c = true) (bounding_cells pts)).


(** [shapely.ops.unary_union]: the union of the point sets; of no geometry
    at all it is an empty collection, a geometry all the same. *)
Definition unary_union (gs : list geom) : geom := ⋃ gs.

(** ** Python's container protocol on decoded JSON *)

Definition type_name (v : pyval) : string :=
  match v with
  | PyNone => "NoneType"
  | PyBool _ => "bool"
  | PyNum _ => "int"
  | PyStr _ => "str"
  | PyList _ => "list"
  | PyDict _ => "dict"
  end.

(** First entry for a key of an insertion-ordered dict. *)
Fixpoint dict_get {V} (k : string) (kvs : list (string * V)) : option V :=
  match kvs with
  | [] => None
  | (k', v) :: rest => if String.eqb k' k then Some v else dict_get k rest
  end.

(** [d[k] = v]: in place when the key is there, at the end otherwise. *)
Fixpoint dict_set {V} (k : string) (v : V) (kvs : list (string * V))
  : list (string * V) :=
  match kvs with
  | [] => [(k, v)]
  | (k', v') :: rest =>
      if String.eqb k' k then (k', v) :: rest else (k', v') :: dict_set k v rest
  end.

Definition is_str (s : string) (v : pyval) : bool :=
  match v with
  | PyStr s' => String.eqb s' s
  | _ => false
  end.

Definition is_substring (s t : string) : bool :=
  match String.index 0 s t with
  | Some _ => true
  | None => false
  end.

(** [s in c] for a string [s]. *)
Definition py_contains (s : string) (c : pyval) : result bool :=
  match c with
  | PyDict kvs => Ok (bool_decide (is_Some (dict_get s kvs)))
  | PyList xs => Ok (existsb (is_str s) xs)
  | PyStr t => Ok (is_substring s t)
  | _ => raise TypeError
           ("argument of type '" +:+ type_name c +:+ "' is not iterable")
  end.

(** [c[k]] for a string key [k]. *)
Definition py_getitem (c : pyval) (k : string) : result pyval :=
  match c with
  | PyDict kvs =>
      match dict_get k kvs with
      | Some v => Ok v
      | None => raise KeyError ("'" +:+ k +:+ "'")
      end
  | PyList _ => raise TypeError "list indices must be integers or slices, not str"
  | PyStr _ => raise TypeError "string indices must be integers, not 'str'"
  | _ => raise TypeError ("'" +:+ type_name c +:+ "' object is not subscriptable")
  end.

Definition chars (s : string) : list pyval :=
  map (fun a => PyStr (String a EmptyString)) (list_ascii_of_string s).

(** [c[i]] for a position [i] produced by [range]. *)
Definition py_index (c : pyval) (i : nat) : result pyval :=
  match c with
  | PyList xs =>
      match xs !! i with
      | Some v => Ok v
      | None => raise IndexError "list index out of range"
      end
  | PyStr s =>
      match chars s !! i with
      | Some v => Ok v
      | None => raise IndexError "string index out of range"
      end
  | PyDict _ => raise KeyError (pretty i)
  | _ => raise TypeError ("'" +:+ type_name c +:+ "' object is not subscriptable")
  end.

(** [len(c)] *)
Definition py_len (c : pyval) : result nat :=
  match c with
  | PyList xs => Ok (length xs)
  | PyStr s => Ok (String.length s)
  | PyDict kvs => Ok (length kvs)
  | _ => raise TypeError ("object of type '" +:+ type_name c +:+ "' has no len()")
  end.

(** The items that [for x in c] visits. *)
Definition py_iter (c : pyval) : result (list pyval) :=
  match c with
  | PyList xs => Ok xs
  | PyStr s => Ok (chars s)
  | PyDict kvs => Ok (map (fun kv => PyStr (fst kv)) kvs)
  | _ => raise TypeError ("'" +:+ type_name c +:+ "' object is not iterable")
  end.

(** ** Tables (pandas) *)

Inductive label : Type :=
| LName (s : string)
| LPos (n : nat).

#[global] Instance label_eq_dec : EqDecision label.
Proof. solve_decision. Defined.

(** What a cell or a row dictionary can hold: nothing, a decoded JSON value
    ([Val PyNone] is Python's [None]) or a shapely geometry. *)
Inductive cellv : Type :=
| NaN
| Val (v : pyval)
| Geom (g : geom).

(** [data] has one list per row, aligned with [columns]. *)
Record frame : Type := mkFrame {
  index : list label;
  columns : list label;
  data : list (list cellv)
}.

(** Keys in order of first appearance. *)
Fixpoint uniq (ks : list string) : list string :=
  match ks with
  | [] => []
  | k :: rest => k :: filter (fun k' => k' ≠ k) (uniq rest)
  end.

Definition cell_of {V} (inj : V -> cellv) (k : string) (kvs : list (string * V))
  : cellv :=
  match dict_get k kvs with
  | Some v => inj v
  | None => NaN
  end.

(** [DataFrame.from_dict(d)] for a dict of dicts, [orient='columns']: the
    outer keys are the columns, the inner keys the row labels. *)
Definition frame_of_columns (cols : list (string * list (string * pyval)))
  : frame :=
  let rows := uniq (concat (map (fun c => map fst (snd c)) cols)) in
  {| index := map LName rows;
     columns := map (fun c => LName (fst c)) cols;
     data := map (fun r => map (fun c => cell_of Val r (snd c)) cols) rows |}.

(** [DataFrame(rows)] for a list of dicts: one row per dict, numbered from
    0, and the union of the keys as columns. *)
Definition frame_of_records (rows : list (list (string * cellv))) : frame :=
  let cols := uniq (concat (map (map fst) rows)) in
  {| index := map LPos (seq 0 (length rows));
     columns := map LName cols;
     data := map (fun r => map (fun c => cell_of id c r) cols) rows |}.

(** [df.T] *)
Definition transpose (f : frame) : frame :=
  {| index := columns f;
     columns := index f;
     data := map (fun j => map (fun row => nth j row NaN) (data f))
                 (seq 0 (length (columns f))) |}.

(** [df[:-1]]: every row but the last. *)
Definition drop_last_row (f : frame) : frame :=
  {| index := removelast (index f);
     columns := columns f;
     data := removelast (data f) |}.

Fixpoint position (l : label) (ls : list label) : option nat :=
  match ls with
  | [] => None
  | l' :: rest => if decide (l' = l) then Some 0 else S <$> position l rest
  end.

(** [df.loc[r, c]] *)
Definition loc (f : frame) (r c : label) : option cellv :=
  i ← position r (index f);
  j ← position c (columns f);
  row ← data f !! i;
  row !! j.

Definition add_column (c : label) (f : frame) : frame :=
  {| index := index f;
     columns := columns f ++ [c];
     data := map (fun row => row ++ [NaN]) (data f) |}.

Definition add_row (r : label) (f : frame) : frame :=
  {| index := index f ++ [r];
     columns := columns f;
     data := data f ++ [map (fun _ => NaN) (columns f)] |}.

(** [df.loc[r, c] = v]: a missing row or column is added first. *)
Definition loc_set (f : frame) (r c : label) (v : cellv) : frame :=
  let f1 := if decide (c ∈ columns f) then f else add_column c f in
  let f2 := if decide (r ∈ index f1) then f1 else add_row r f1 in
  match position r (index f2), position c (columns f2) with
  | Some i, Some j =>
      {| index := index f2;
         columns := columns f2;
         data := alter (fun row => <[j := v]> row) i (data f2) |}
  | _, _ => f2
  end.

(** ** Effects: the network and standard output

    The world holds what has been printed so far and the number of
    requests already sent; the remote service decides, per URL and per
    request, what the next request meets. *)

Record world : Type := mkWorld {
  clock : nat;
  stdout : list string
}.

Definition py (A : Type) : Type := world -> result A * world.

#[global] Instance py_ret : MRet py := fun A a w => (Ok a, w).
#[global] Instance py_bind : MBind py := fun A B k m w =>
  match m w with
  | (Ok a, w') => k a w'
  | (Raise e, w') => (Raise e, w')
  end.

Definition lift {A} (r : result A) : py A := fun w => (r, w).

Definition print (line : string) : py unit := fun w =>
  (Ok tt, {| clock := clock w; stdout := stdout w ++ [line] |}).

(** The world after one request, and after one request and one printed
    line. *)
Definition tick (w : world) : world :=
  {| clock := S (clock w); stdout := stdout w |}.

Definition say (w : world) (line : string) : world :=
  {| clock := S (clock w); stdout := stdout w ++ [line] |}.

(** [try: body except C1: h1 except C2: h2 ...]: the first clause whose
    class the exception is an instance of handles it; with no such clause
    the exception goes on to the caller. *)
Definition try_except {A} (body : py A)
    (handlers : list (exn_class * (exn -> py A))) : py A := fun w =>
  match body w with
  | (Ok a, w') => (Ok a, w')
  | (Raise e, w') =>
      match find (fun h => isinstance e (fst h)) handlers with
      | Some h => snd h e w'
      | None => (Raise e, w')
      end
  end.

(** What [requests.get] hands back when it returns at all. *)
Inductive response : Type :=
| BadStatus (msg : string)
| BadBody (legacy : bool) (msg : string)
| Body (v : pyval).

(** What a request can meet: no answer within the timeout, no connection,
    or a response. *)
Inductive behaviour : Type :=
| TimesOut (msg : string)
| Unreachable (msg : string)
| Responds (r : response).

(** [result.raise_for_status()] *)
Definition raise_for_status (r : response) : result unit :=
  match r with
  | BadStatus msg => raise HTTPError msg
  | _ => Ok tt
  end.

(** [result.json()]: the decoding error of requests is a
    [RequestException]; before requests 2.27 it was a plain [ValueError]
    ([legacy]). *)
Definition json (r : response) : result pyval :=
  match r with
  | Body v => Ok v
  | BadBody legacy msg => raise (if legacy then ValueError else JSONDecodeError) msg
  | BadStatus msg => raise JSONDecodeError msg
  end.

(** ['features' not in res or len(res['features']) == 0] *)
Definition no_features (res : pyval) : result bool :=
  has ← py_contains "features" res;
  if negb has then Ok true
  else fs ← py_getitem res "features"; n ← py_len fs; Ok (Nat.eqb n 0).

(** A ring as shapely reads it: a list of [[x, y]] pairs. *)
Definition point_of (p : pyval) : option cell :=
  match p with
  | PyList [PyNum x; PyNum y] => Some (x, y)
  | _ => None
  end.

Definition coords_of (ring : pyval) : option (list cell) :=
  match ring with
  | PyList pts => mapM point_of pts
  | _ => None
  end.

Definition close_ring (pts : list cell) : list cell :=
  match pts with
  | [] => []
  | p :: _ => if decide (last pts = Some p) then pts else pts ++ [p]
  end.

Definition all_dicts (kvs : list (string * pyval))
  : option (list (string * list (string * pyval))) :=
  mapM (fun kv => match snd kv with
                  | PyDict inner => Some (fst kv, inner)
                  | _ => None
                  end) kvs.

(** ** Vocabulary of the statements *)

(** [t] occurs in [line]. *)
Definition mentions (line t : string) : Prop :=
  exists pre post, line = pre +:+ t +:+ post.



(** The value under [feature['geometry']['rings']], when both keys are
    there, and the number of rings it lists. *)
Definition rings_of (feature : pyval) : option pyval :=
  match feature with
  | PyDict f =>
      match dict_get "geometry" f with
      | Some (PyDict g) => dict_get "rings" g
      | _ => None
      end
  | _ => None
  end.

Definition ring_count (feature : pyval) : nat :=
  match rings_of feature with
  | Some (PyList rs) => length rs
  | _ => 0
  end.

(** A cell that holds a geometry, as opposed to [None] or nothing. *)
Definition populated (c : option cellv) : Prop :=
  exists u, c = Some (Geom u).

(** A decoded value that is neither a container nor a string. *)
Definition scalar (v : pyval) : Prop :=
  match v with
  | PyNone | PyBool _ | PyNum _ => True
  | _ => False
  end.

(** How the service reads a quoted literal back: from the opening quote up
    to the next quote; it gives the literal and what follows it. *)
Fixpoint until_quote (s : string) : option (string * string) :=
  match s with
  | EmptyString => None
  | String c s' =>
      if Ascii.eqb c "'" then Some (EmptyString, s')
      else match until_quote s' with
           | Some (lit, rest) => Some (String c lit, rest)
           | None => None
           end
  end.

Definition read_literal (s : string) : option (string * string) :=
  match s with
  | String c s' => if Ascii.eqb c "'" then until_quote s' else None
  | EmptyString => None
  end.

Definition has_quote (s : string) : Prop :=
  In "'"%char (list_ascii_of_string s).

(** ** Fixtures *)

Definition w0 : world := {| clock := 0; stdout := [] |}.

(** A service that answers every request with the same body. *)
Definition answering (body : pyval) : string -> nat -> behaviour :=
  fun _ _ => Responds (Body body).

(** A service that meets every request with the same behaviour. *)
Definition meeting (b : behaviour) : string -> nat -> behaviour :=
  fun _ _ => b.

(** A service whose first answer differs from the later ones. *)
Definition changing (first later : pyval) : string -> nat -> behaviour :=
  fun _ n => Responds (Body (match n with O => first | S _ => later end)).

Definition no_frame : pyval -> string + frame := fun _ => inl "not a dict of dicts".
Definition no_polygon : pyval -> string + geom := fun _ => inl "not a ring".

Definition square (a b : Z) : pyval :=
  PyList [PyList [PyNum a; PyNum a]; PyList [PyNum a; PyNum b];
          PyList [PyNum b; PyNum b]; PyList [PyNum b; PyNum a];
          PyList [PyNum a; PyNum a]].

Definition square_pts (a b : Z) : list cell :=
  [(a, a); (a, b); (b, b); (b, a); (a, a)].

Definition haiti_attrs : list (string * pyval) :=
  [("ISO_A3", PyStr "HTI"); ("NAME_EN", PyStr "Haiti")].

(** A subdivision known by its attributes and a point, without rings. *)
Definition ringless : pyval :=
  PyDict [("attributes", PyDict [("NAM_1", PyStr "Ouest")]);
          ("geometry", PyDict [("x", PyNum 0); ("y", PyNum 0)])].

Definition haiti (rings : list pyval) : pyval :=
  PyDict [("attributes", PyDict haiti_attrs);
          ("geometry", PyDict [("rings", PyList rings)])].

Definition fixture (features : list pyval) : pyval :=
  PyDict [("features", PyList features)].

Section Fetch.

Set Default Proof Using "Type".

(** The remote service: what the [n]-th request meets at a URL. *)
Variable service : string -> nat -> behaviour.

(** pandas on anything but a dict of dicts, and shapely on anything but a
    list of coordinate pairs: either may build something or raise (the
    message), and neither is modelled further. *)
Variable from_dict_other : pyval -> string + frame.
Variable Polygon_other : pyval -> string + geom.

(** [requests.get(url, timeout=30, verify=False)] *)
Definition requests_get (url : string) : py response := fun w =>
  let w' := tick w in
  match service url (clock w) with
  | TimesOut msg => (raise Timeout msg, w')
  | Unreachable msg => (raise ConnectionError msg, w')
  | Responds r => (Ok r, w')
  end.

(** [pd.DataFrame.from_dict(d)] *)
Definition from_dict (d : pyval) : result frame :=
  match d with
  | PyDict kvs =>
      match all_dicts kvs with
      | Some cols => Ok (frame_of_columns cols)
      | None => match from_dict_other d with
                | inl msg => raise ValueError msg
                | inr f => Ok f
                end
      end
  | _ => match from_dict_other d with
         | inl msg => raise ValueError msg
         | inr f => Ok f
         end
  end.

(** [shapely.geometry.Polygon(ring)]: the ring is the shell.  No
    coordinates give an empty polygon; otherwise the closed ring needs four
    of them. *)
Definition Polygon (ring : pyval) : result geom :=
  match coords_of ring with
  | Some pts =>
      if bool_decide (pts = []) || (4 <=? length (close_ring pts))%nat
      then Ok (region pts)
      else raise ValueError "A linearring requires at least 4 coordinates."
  | None => match Polygon_other ring with
            | inl msg => raise ValueError msg
            | inr g => Ok g
            end
  end.

(** Lines 50 to 59: the table of the first feature, with its geometry
    assembled ring by ring and stored at row ['attributes'], column
    ['rings']. *)
Definition boundaries_frame (res : pyval) : result frame :=
  df ← (fs ← py_getitem res "features";
        f0 ← py_index fs 0;
        d ← from_dict f0;
        Ok (drop_last_row (transpose d)));
  n ← (fs ← py_getitem res "features";
       f0 ← py_index fs 0;
       g ← py_getitem f0 "geometry";
       rings ← py_getitem g "rings";
       py_len rings);
  geom_list ← for_each (fun i =>
                 fs ← py_getitem res "features";
                 f0 ← py_index fs 0;
                 g ← py_getitem f0 "geometry";
                 rings ← py_getitem g "rings";
                 ring ← py_index rings i;
                 Polygon ring) (seq 0 n);
  let geom := unary_union geom_list in
  Ok (loc_set df (LName "attributes") (LName "rings") (Geom geom)).

(** The same table with the subscripts [res['features'][0]] and
    [...['geometry']['rings']] evaluated once, as a function of the first
    feature alone (see [boundaries_frame_first]). *)
Definition feature_frame (f0 : pyval) : result frame :=
  d ← from_dict f0;
  g ← py_getitem f0 "geometry";
  rings ← py_getitem g "rings";
  n ← py_len rings;
  geom_list ← for_each (fun i => ring ← py_index rings i; Polygon ring) (seq 0 n);
  Ok (loc_set (drop_last_row (transpose d)) (LName "attributes") (LName "rings")
              (Geom (unary_union geom_list))).

Definition get_boundaries (attr val : string) : py (option frame) :=
  try_except
    (resp ← requests_get (boundaries_url attr val);
     _ ← lift (raise_for_status resp);
     res ← lift (json resp);
     empty ← lift (no_features res);
     if (empty : bool) then
       _ ← print ("No features found for " +:+ attr +:+ "='" +:+ val +:+ "'");
       mret None
     else
       df ← lift (boundaries_frame res);
       mret (Some df))
    [(Timeout, fun e =>
        _ ← print ("Request timed out for " +:+ attr +:+ "='" +:+ val +:+ "'");
        mret None);
     (RequestException, fun e =>
        _ ← print ("Request error: " +:+ exn_msg e);
        mret None);
     (Exception, fun e =>
        _ ← print ("Error processing data: " +:+ exn_msg e);
        mret None)].

(** [attrs['geometry'] = geom], giving the row dictionary that is appended
    to [rows]. *)
Definition set_geometry (attrs : pyval) (geom : cellv)
  : result (list (string * cellv)) :=
  match attrs with
  | PyDict kvs =>
      Ok (dict_set "geometry" geom (map (fun kv => (fst kv, Val (snd kv))) kvs))
  | PyList _ => raise TypeError "list indices must be integers or slices, not str"
  | _ => raise TypeError
           ("'" +:+ type_name attrs +:+ "' object does not support item assignment")
  end.

(** The body of [for feature in res['features']]. *)
Definition admin_row (feature : pyval) : result (list (string * cellv)) :=
  attrs ← py_getitem feature "attributes";
  g ← py_getitem feature "geometry";
  has ← py_contains "rings" g;
  geom ← (if (has : bool) then
            g' ← py_getitem feature "geometry";
            rings ← py_getitem g' "rings";
            items ← py_iter rings;
            geom_list ← for_each Polygon items;
            Ok (Geom (unary_union geom_list))
          else Ok (Val PyNone));
  set_geometry attrs geom.

(** The loop over [res['features']] that fills [rows]. *)
Definition admin_rows (res : pyval) : result (list (list (string * cellv))) :=
  fs ← py_getitem res "features";
  features ← py_iter fs;
  for_each admin_row features.

(** [get_admin1_boundaries] and [get_admin2_boundaries] are the same text
    up to the layer in the URL and the level named in two messages. *)
Definition get_admin_boundaries (url level iso_code : string)
  : py (option frame) :=
  try_except
    (resp ← requests_get url;
     _ ← lift (raise_for_status resp);
     res ← lift (json resp);
     empty ← lift (no_features res);
     if (empty : bool) then
       _ ← print ("No admin " +:+ level +:+ " features found for ISO='"
                  +:+ iso_code +:+ "'");
       mret None
     else
       rows ← lift (admin_rows res);
       let df := frame_of_records rows in
       _ ← print ("Found " +:+ pretty (length (index df)) +:+ " admin " +:+ level
                  +:+ " subdivisions for " +:+ iso_code);
       mret (Some df))
    [(Timeout, fun e =>
        _ ← print ("Request timed out for ISO='" +:+ iso_code +:+ "'");
        mret None);
     (RequestException, fun e =>
        _ ← print ("Request error: " +:+ exn_msg e);
        mret None);
     (Exception, fun e =>
        _ ← print ("Error processing data: " +:+ exn_msg e);
        mret None)].

Definition get_admin1_boundaries (iso_code : string) : py (option frame) :=
  get_admin_boundaries (admin1_url iso_code) "1" iso_code.

Definition get_admin2_boundaries (iso_code : string) : py (option frame) :=
  get_admin_boundaries (admin2_url iso_code) "2" iso_code.

(** A feature as the service documents it: an attributes mapping and a
    geometry mapping whose rings, when it has any, all make polygons. *)
Definition well_formed (feature : pyval) : Prop :=
  exists f attrs g,
    feature = PyDict f /\
    dict_get "attributes" f = Some (PyDict attrs) /\
    dict_get "geometry" f = Some (PyDict g) /\
    forall rings, dict_get "rings" g = Some rings ->
                  exists rs gl, rings = PyList rs /\ for_each Polygon rs = Ok gl.

(** ** Which exceptions the processing code can raise *)

Definition local_exn (e : exn) : Prop :=
  exn_cls e = TypeError \/ exn_cls e = ValueError \/
  exn_cls e = KeyError \/ exn_cls e = IndexError.

Definition raises_locally {A} (r : result A) : Prop :=
  forall e, r = Raise e -> local_exn e.

Lemma append_assoc (s t u : string) : (s +:+ t) +:+ u = s +:+ (t +:+ u).
Proof.
  induction s as [|c s IH]; [done|].
  change (String c ((s +:+ t) +:+ u) = String c (s +:+ (t +:+ u))).
  by rewrite IH.
Qed.

Lemma append_nil_r (s : string) : s +:+ "" = s.
Proof.
  induction s as [|c s IH]; [done|].
  change (String c (s +:+ "") = String c s). by rewrite IH.
Qed.

Lemma raise_locally {A} c msg :
  c = TypeError \/ c = ValueError \/ c = KeyError \/ c = IndexError ->
  raises_locally (@raise A c msg).
Proof. intros Hc e [= <-]. exact Hc. Qed.

Lemma ok_locally {A} (a : A) : raises_locally (Ok a).
Proof. intros e [=]. Qed.

Lemma bind_locally {A B} (r : result A) (k : A -> result B) :
  raises_locally r -> (forall a, r = Ok a -> raises_locally (k a)) ->
  raises_locally (r ≫= k).
Proof.
  intros Hr Hk. destruct r as [a|e]; cbn.
  - by apply Hk.
  - intros e' [= <-]. by apply Hr.
Qed.

Lemma for_each_locally {A B} (f : A -> result B) xs :
  (forall x, raises_locally (f x)) -> raises_locally (for_each f xs).
Proof.
  intros Hf. induction xs as [|x xs IH]; cbn; [apply ok_locally|].
  apply bind_locally; [apply Hf|]. intros y _.
  apply bind_locally; [apply IH|]. intros ys _. apply ok_locally.
Qed.

Create HintDb locally.
#[local] Hint Resolve ok_locally : locally.
#[local] Hint Extern 1 (raises_locally (raise _ _)) =>
  apply raise_locally;
  first [ by left | by right; left | by right; right; left
        | by right; right; right ] : locally.

Ltac locally :=
  repeat first
    [ progress auto with locally
    | apply bind_locally; [|intros ? _]
    | apply for_each_locally; intros ?
    | match goal with
      | |- raises_locally (match ?x with _ => _ end) => destruct x
      | |- raises_locally (if ?b then _ else _) => destruct b
      end ].

Lemma py_contains_locally s c : raises_locally (py_contains s c).
Proof. unfold py_contains. locally. Qed.

Lemma py_getitem_locally c k : raises_locally (py_getitem c k).
Proof. unfold py_getitem. locally. Qed.

Lemma py_index_locally c i : raises_locally (py_index c i).
Proof. unfold py_index. locally. Qed.

Lemma py_len_locally c : raises_locally (py_len c).
Proof. unfold py_len. locally. Qed.

Lemma py_iter_locally c : raises_locally (py_iter c).
Proof. unfold py_iter. locally. Qed.

Lemma from_dict_locally d : raises_locally (from_dict d).
Proof. unfold from_dict. locally. Qed.

Lemma Polygon_locally ring : raises_locally (Polygon ring).
Proof. unfold Polygon. locally. Qed.

Lemma set_geometry_locally attrs g : raises_locally (set_geometry attrs g).
Proof. unfold set_geometry. locally. Qed.

#[local] Hint Resolve py_contains_locally py_getitem_locally py_index_locally
  py_len_locally py_iter_locally from_dict_locally Polygon_locally
  set_geometry_locally : locally.

Lemma no_features_locally res : raises_locally (no_features res).
Proof. unfold no_features. locally. Qed.

Lemma boundaries_frame_locally res : raises_locally (boundaries_frame res).
Proof. unfold boundaries_frame. locally. Qed.

Lemma admin_row_locally feature : raises_locally (admin_row feature).
Proof. unfold admin_row. locally. Qed.

Lemma admin_rows_locally res : raises_locally (admin_rows res).
Proof.
  unfold admin_rows. locally.
Qed.

(** ** What a call does, behaviour by behaviour *)

Lemma handled_locally {A} (e : exn) (h1 h2 h3 : exn -> py A) :
  local_exn e ->
  find (fun h => isinstance e (fst h))
       [(Timeout, h1); (RequestException, h2); (Exception, h3)]
  = Some (Exception, h3).
Proof.
  destruct e as [c msg]. unfold local_exn, isinstance. cbn.
  intros [-> | [-> | [-> | ->]]]; reflexivity.
Qed.

Ltac run_handler :=
  match goal with
  | H : ?r = Raise ?e |- _ =>
      let L := fresh "L" in
      assert (L : local_exn e)
        by (first [ exact (no_features_locally _ _ H)
                  | exact (boundaries_frame_locally _ _ H)
                  | exact (admin_rows_locally _ _ H) ]);
      cbn -[find isinstance]; rewrite (handled_locally _ _ _ _ L); reflexivity
  end.

Lemma get_boundaries_run attr val w :
  get_boundaries attr val w =
  match service (boundaries_url attr val) (clock w) with
  | TimesOut _ =>
      (Ok None, say w ("Request timed out for " +:+ attr +:+ "='" +:+ val +:+ "'"))
  | Unreachable msg | Responds (BadStatus msg) =>
      (Ok None, say w ("Request error: " +:+ msg))
  | Responds (BadBody legacy msg) =>
      (Ok None, say w ((if legacy then "Error processing data: "
                        else "Request error: ") +:+ msg))
  | Responds (Body res) =>
      match no_features res with
      | Ok true =>
          (Ok None, say w ("No features found for " +:+ attr +:+ "='" +:+ val +:+ "'"))
      | Ok false =>
          match boundaries_frame res with
          | Ok df => (Ok (Some df), tick w)
          | Raise e => (Ok None, say w ("Error processing data: " +:+ exn_msg e))
          end
      | Raise e => (Ok None, say w ("Error processing data: " +:+ exn_msg e))
      end
  end.
Proof.
  unfold get_boundaries, try_except, mbind, py_bind, requests_get.
  destruct (service _ _) as [msg|msg|[msg|[] msg|res]]; try reflexivity.
  cbn -[find isinstance]. destruct (no_features res) as [[]|e] eqn:E; try reflexivity.
  - cbn -[find isinstance]. destruct (boundaries_frame res) as [df|e] eqn:F; [reflexivity|].
    run_handler.
  - run_handler.
Qed.

Lemma get_admin_boundaries_run url level iso_code w :
  get_admin_boundaries url level iso_code w =
  match service url (clock w) with
  | TimesOut _ =>
      (Ok None, say w ("Request timed out for ISO='" +:+ iso_code +:+ "'"))
  | Unreachable msg | Responds (BadStatus msg) =>
      (Ok None, say w ("Request error: " +:+ msg))
  | Responds (BadBody legacy msg) =>
      (Ok None, say w ((if legacy then "Error processing data: "
                        else "Request error: ") +:+ msg))
  | Responds (Body res) =>
      match no_features res with
      | Ok true =>
          (Ok None, say w ("No admin " +:+ level +:+ " features found for ISO='"
                           +:+ iso_code +:+ "'"))
      | Ok false =>
          match admin_rows res with
          | Ok rows =>
              (Ok (Some (frame_of_records rows)),
               say w ("Found " +:+ pretty (length rows) +:+ " admin " +:+ level
                      +:+ " subdivisions for " +:+ iso_code))
          | Raise e => (Ok None, say w ("Error processing data: " +:+ exn_msg e))
          end
      | Raise e => (Ok None, say w ("Error processing data: " +:+ exn_msg e))
      end
  end.
Proof.
  unfold get_admin_boundaries, try_except, mbind, py_bind, requests_get.
  destruct (service _ _) as [msg|msg|[msg|[] msg|res]]; try reflexivity.
  cbn -[find isinstance]. destruct (no_features res) as [[]|e] eqn:E; try reflexivity.
  - cbn -[find isinstance]. destruct (admin_rows res) as [rows|e] eqn:F.
    + cbn. unfold say. by rewrite length_map, length_seq.
    + run_handler.
  - run_handler.
Qed.

(** ** The claims about failure handling *)




Lemma no_features_absent_or_empty kvs :
  dict_get "features" kvs = None \/ dict_get "features" kvs = Some (PyList []) ->
  no_features (PyDict kvs) = Ok true.
Proof.
  unfold no_features, py_contains, py_getitem.
  intros [-> | ->]; reflexivity.
Qed.

(** C6: when the query matches no feature, [get_boundaries] returns [None]
    without raising, and the line it prints names both the attribute and the
    value; it is the no-features line, not one of the error lines, whatever
    pandas and shapely would have done. *)
Theorem C6_no_match_returns_none attr val w kvs :
  service (boundaries_url attr val) (clock w) = Responds (Body (PyDict kvs)) ->
  dict_get "features" kvs = Some (PyList []) ->
  exists line,
    get_boundaries attr val w = (Ok None, say w line) /\
    mentions line attr /\ mentions line val /\
    String.prefix "No features found" line = true /\
    String.prefix "Request timed out" line = false /\
    String.prefix "Request error" line = false /\
    String.prefix "Error processing data" line = false.
Proof.
  intros Hs Hf. eexists. split.
  - rewrite get_boundaries_run, Hs, no_features_absent_or_empty by auto.
    reflexivity.
  - repeat split; try reflexivity.
    + by exists "No features found for ", ("='" +:+ val +:+ "'").
    + exists ("No features found for " +:+ attr +:+ "='"), "'".
      by rewrite !append_assoc.
Qed.

(** C10: a decoded response that is a JSON object without a ['features']
    key is treated like one whose feature list is empty: each of the three
    functions prints its no-features line and returns [None]. *)
Theorem C10_missing_features_key kvs :
  dict_get "features" kvs = None \/ dict_get "features" kvs = Some (PyList []) ->
  (forall attr val w,
     service (boundaries_url attr val) (clock w) = Responds (Body (PyDict kvs)) ->
     get_boundaries attr val w =
     (Ok None, say w ("No features found for " +:+ attr +:+ "='" +:+ val +:+ "'")))
  /\
  (forall iso_code w,
     service (admin1_url iso_code) (clock w) = Responds (Body (PyDict kvs)) ->
     get_admin1_boundaries iso_code w =
     (Ok None, say w ("No admin 1 features found for ISO='" +:+ iso_code +:+ "'")))
  /\
  (forall iso_code w,
     service (admin2_url iso_code) (clock w) = Responds (Body (PyDict kvs)) ->
     get_admin2_boundaries iso_code w =
     (Ok None, say w ("No admin 2 features found for ISO='" +:+ iso_code +:+ "'"))).
Proof.
  intros Hk. repeat split; intros.
  - rewrite get_boundaries_run. by rewrite H, no_features_absent_or_empty.
  - unfold get_admin1_boundaries. rewrite get_admin_boundaries_run.
    by rewrite H, no_features_absent_or_empty.
  - unfold get_admin2_boundaries. rewrite get_admin_boundaries_run.
    by rewrite H, no_features_absent_or_empty.
Qed.

(** C8: a call keeps nothing from one call to the next: when the service
    meets the second of two successive identical calls with what it met the
    first with, both calls return the same value. *)
Theorem C8_same_response_same_table attr val iso_code w :
  service (boundaries_url attr val) (S (clock w))
    = service (boundaries_url attr val) (clock w) ->
  service (admin1_url iso_code) (S (clock w))
    = service (admin1_url iso_code) (clock w) ->
  service (admin2_url iso_code) (S (clock w))
    = service (admin2_url iso_code) (clock w) ->
  fst (get_boundaries attr val (snd (get_boundaries attr val w)))
    = fst (get_boundaries attr val w) /\
  fst (get_admin1_boundaries iso_code (snd (get_admin1_boundaries iso_code w)))
    = fst (get_admin1_boundaries iso_code w) /\
  fst (get_admin2_boundaries iso_code (snd (get_admin2_boundaries iso_code w)))
    = fst (get_admin2_boundaries iso_code w).
Proof.
  intros H0 H1 H2. unfold get_admin1_boundaries, get_admin2_boundaries.
  repeat split.
  - assert (Hc : clock (snd (get_boundaries attr val w)) = S (clock w)).
    { rewrite get_boundaries_run. by repeat case_match. }
    rewrite (get_boundaries_run _ _ (snd _)), Hc, H0, get_boundaries_run.
    by repeat case_match.
  - assert (Hc : clock (snd (get_admin_boundaries (admin1_url iso_code) "1" iso_code w))
                 = S (clock w)).
    { rewrite get_admin_boundaries_run. by repeat case_match. }
    rewrite (get_admin_boundaries_run _ _ _ (snd _)), Hc, H1,
      get_admin_boundaries_run.
    by repeat case_match.
  - assert (Hc : clock (snd (get_admin_boundaries (admin2_url iso_code) "2" iso_code w))
                 = S (clock w)).
    { rewrite get_admin_boundaries_run. by repeat case_match. }
    rewrite (get_admin_boundaries_run _ _ _ (snd _)), Hc, H2,
      get_admin_boundaries_run.
    by repeat case_match.
Qed.

(** ** The first feature *)

Lemma for_each_ext {A B} (f g : A -> result B) xs :
  (forall x, f x = g x) -> for_each f xs = for_each g xs.
Proof.
  intros Hfg. induction xs as [|x xs IH]; [done|]. cbn. by rewrite Hfg, IH.
Qed.

Lemma no_features_first kvs f rest :
  dict_get "features" kvs = Some (PyList (f :: rest)) ->
  no_features (PyDict kvs) = Ok false.
Proof.
  intros H. unfold no_features, py_contains, py_getitem. by rewrite H.
Qed.

Lemma py_getitem_dict kvs k v :
  dict_get k kvs = Some v -> py_getitem (PyDict kvs) k = Ok v.
Proof. intros H. unfold py_getitem. by rewrite H. Qed.

Lemma boundaries_frame_first kvs f rest :
  dict_get "features" kvs = Some (PyList (f :: rest)) ->
  boundaries_frame (PyDict kvs) = feature_frame f.
Proof.
  intros H. apply py_getitem_dict in H.
  unfold boundaries_frame, feature_frame. rewrite !H. cbn.
  destruct (from_dict f) as [d|e]; [cbn|done].
  destruct (py_getitem f "geometry") as [g|e] eqn:Hg; [cbn|done].
  destruct (py_getitem g "rings") as [rings|e] eqn:Hr; [cbn|done].
  destruct (py_len rings) as [n|e]; [cbn|done].
  apply (f_equal (fun r => mbind _ r)). by apply for_each_ext.
Qed.

Lemma get_boundaries_first attr val w kvs f rest :
  service (boundaries_url attr val) (clock w) = Responds (Body (PyDict kvs)) ->
  dict_get "features" kvs = Some (PyList (f :: rest)) ->
  get_boundaries attr val w =
  match feature_frame f with
  | Ok df => (Ok (Some df), tick w)
  | Raise e => (Ok None, say w ("Error processing data: " +:+ exn_msg e))
  end.
Proof.
  intros Hs Hf. rewrite get_boundaries_run, Hs.
  by rewrite (no_features_first _ _ _ Hf), (boundaries_frame_first _ _ _ Hf).
Qed.

(** C5: of a response with several features [get_boundaries] uses the first
    alone, for the attributes and for the geometry: two responses that agree
    on their first feature give the same value, whatever follows it. *)
Theorem C5_only_the_first_feature attr val w1 w2 kvs1 kvs2 f rest1 rest2 :
  service (boundaries_url attr val) (clock w1) = Responds (Body (PyDict kvs1)) ->
  service (boundaries_url attr val) (clock w2) = Responds (Body (PyDict kvs2)) ->
  dict_get "features" kvs1 = Some (PyList (f :: rest1)) ->
  dict_get "features" kvs2 = Some (PyList (f :: rest2)) ->
  fst (get_boundaries attr val w1) = fst (get_boundaries attr val w2) /\
  fst (get_boundaries attr val w1) =
    Ok (match feature_frame f with Ok df => Some df | Raise _ => None end).
Proof.
  intros Hs1 Hs2 Hf1 Hf2.
  rewrite (get_boundaries_first _ _ _ _ _ _ Hs1 Hf1),
    (get_boundaries_first _ _ _ _ _ _ Hs2 Hf2).
  by destruct (feature_frame f).
Qed.

(** C9: in [get_boundaries] a first feature without a ['geometry'] key, or
    whose geometry mapping has no ['rings'] key, ends the call in the
    catch-all clause: an 'Error processing data' line is printed and [None]
    is returned, with no table of the attributes. *)
Theorem C9_missing_geometry_is_a_processing_error attr val w kvs feat rest :
  service (boundaries_url attr val) (clock w) = Responds (Body (PyDict kvs)) ->
  dict_get "features" kvs = Some (PyList (PyDict feat :: rest)) ->
  dict_get "geometry" feat = None \/
  (exists g, dict_get "geometry" feat = Some (PyDict g) /\
             dict_get "rings" g = None) ->
  exists msg,
    get_boundaries attr val w =
    (Ok None, say w ("Error processing data: " +:+ msg)).
Proof.
  intros Hs Hf Hg. rewrite (get_boundaries_first _ _ _ _ _ _ Hs Hf).
  unfold feature_frame.
  destruct (from_dict (PyDict feat)) as [d|e]; [cbn|by eexists].
  destruct Hg as [Hg | (g & Hg & Hr)]; rewrite Hg; cbn; [by eexists|].
  rewrite Hr. by eexists.
Qed.

(** ** Request URLs *)

Lemma append_cons c (s t : string) : String c s +:+ t = String c (s +:+ t).
Proof. reflexivity. Qed.

Lemma until_quote_plain val rest :
  ~ has_quote val -> until_quote (val +:+ "'" +:+ rest) = Some (val, rest).
Proof.
  unfold has_quote. induction val as [|c val IH]; intros Hq; [done|].
  rewrite append_cons. cbn [until_quote].
  destruct (Ascii.eqb_spec c "'") as [->|Hc].
  - exfalso. apply Hq. by left.
  - rewrite IH; [done|]. intros Hin. apply Hq. by right.
Qed.

Lemma until_quote_quoted val rest :
  has_quote val -> until_quote (val +:+ "'" +:+ rest) <> Some (val, rest).
Proof.
  unfold has_quote. induction val as [|c val IH]; intros Hq; [done|].
  rewrite append_cons. cbn [until_quote].
  destruct (Ascii.eqb_spec c "'") as [->|Hc]; [done|].
  destruct Hq as [Hq|Hq]; [done|].
  specialize (IH Hq).
  destruct (until_quote (val +:+ "'" +:+ rest)) as [[lit rest']|]; [|done].
  intros [= -> ->]. by apply IH.
Qed.

(** C7: each request URL is the layer endpoint followed by
    [where=<attribute>='<value>'] ([ISO_A3='<iso_code>'] for the admin
    fetches) and [f=pjson], [returnGeometry=true], [outFields=*],
    [outSR=4326]; the value is pasted between the quotes as it is, so the
    literal read back from the predicate is the value exactly when the value
    has no quote character in it. *)
Theorem C7_request_url attr val iso_code rest :
  boundaries_url attr val =
    "https://services.arcgis.com/iQ1dY19aHwbSDYIF/ArcGIS/rest/services/World_Bank_Official_Boundaries_World_Country_Polygons_(Very_High_Definition)/FeatureServer/0/query?where="
    +:+ attr +:+ "=" +:+ ("'" +:+ val +:+ "'" +:+
    "&f=pjson&returnGeometry=true&outFields=*&outSR=4326") /\
  admin1_url iso_code =
    "https://services.arcgis.com/iQ1dY19aHwbSDYIF/ArcGIS/rest/services/World_Bank_Global_Administrative_Divisions/FeatureServer/2/query?where=ISO_A3="
    +:+ ("'" +:+ iso_code +:+ "'" +:+
    "&f=pjson&returnGeometry=true&outFields=*&outSR=4326") /\
  admin2_url iso_code =
    "https://services.arcgis.com/iQ1dY19aHwbSDYIF/ArcGIS/rest/services/World_Bank_Global_Administrative_Divisions/FeatureServer/3/query?where=ISO_A3="
    +:+ ("'" +:+ iso_code +:+ "'" +:+
    "&f=pjson&returnGeometry=true&outFields=*&outSR=4326") /\
  (read_literal ("'" +:+ val +:+ "'" +:+ rest) = Some (val, rest)
   <-> ~ has_quote val).
Proof.
  unfold boundaries_url, admin1_url, admin2_url, join, where_query.
  cbn [fold_right]. rewrite !append_nil_r.
  repeat split; try reflexivity.
  - intros Hr Hq. revert Hr. by apply until_quote_quoted.
  - apply until_quote_plain.
Qed.

(** ** Tables *)

Lemma for_each_index_from {B} (F : pyval -> result B) pre rs :
  for_each (fun i => ring ← py_index (PyList (pre ++ rs)) i; F ring)
           (seq (length pre) (length rs))
  = for_each F rs.
Proof.
  revert pre. induction rs as [|r rs IH]; intros pre; [done|].
  cbn [length seq for_each].
  assert (Hr : py_index (PyList (pre ++ r :: rs)) (length pre) = Ok r).
  { unfold py_index. by rewrite list_lookup_middle. }
  rewrite Hr. cbn.
  destruct (F r) as [y|e]; [cbn|done].
  specialize (IH (pre ++ [r])).
  rewrite <- app_assoc, length_app in IH. cbn in IH.
  rewrite Nat.add_1_r in IH. by rewrite IH.
Qed.

Lemma for_each_index {B} (F : pyval -> result B) rs :
  for_each (fun i => ring ← py_index (PyList rs) i; F ring) (seq 0 (length rs))
  = for_each F rs.
Proof. exact (for_each_index_from F [] rs). Qed.

Lemma for_each_length {A B} (f : A -> result B) xs ys :
  for_each f xs = Ok ys -> length ys = length xs.
Proof.
  revert ys. induction xs as [|x xs IH]; intros ys; cbn; [by intros [= <-]|].
  destruct (f x) as [y|]; [cbn|done].
  destruct (for_each f xs) as [ys'|]; [cbn|done].
  intros [= <-]. cbn. by rewrite (IH ys').
Qed.

Lemma for_each_lookup {A B} (f : A -> result B) xs ys i x :
  for_each f xs = Ok ys -> xs !! i = Some x ->
  exists y, ys !! i = Some y /\ f x = Ok y.
Proof.
  revert ys i. induction xs as [|x' xs IH]; intros ys i; [done|]. cbn.
  destruct (f x') as [y'|] eqn:Hy; [cbn|done].
  destruct (for_each f xs) as [ys'|]; [cbn|done].
  intros [= <-]. destruct i as [|i]; cbn.
  - intros [= ->]. eauto.
  - intros Hx. by apply IH.
Qed.

Lemma elem_of_uniq k ks : k ∈ uniq ks <-> k ∈ ks.
Proof.
  induction ks as [|k' ks IH]; [done|]. cbn.
  rewrite !elem_of_cons, list_elem_of_filter, IH.
  destruct (decide (k = k')) as [->|Hne]; split.
  - by left.
  - by left.
  - intros [?|[_ ?]]; [by left|by right].
  - intros [?|?]; [by left|by right].
Qed.

Lemma dict_get_elem_of {V} k (kvs : list (string * V)) v :
  dict_get k kvs = Some v -> k ∈ map fst kvs.
Proof.
  induction kvs as [|[k' v'] kvs IH]; [done|]. cbn.
  destruct (String.eqb_spec k' k) as [->|]; [left|right; auto].
Qed.

Lemma position_LName_Some k ks i :
  position (LName k) (map LName ks) = Some i -> ks !! i = Some k.
Proof.
  revert i. induction ks as [|k' ks IH]; intros i; [done|]. cbn.
  case_decide as Hk.
  - intros [= <-]. by injection Hk as ->.
  - destruct (position _ _) as [i'|]; [|done]. cbn. intros [= <-]. by apply IH.
Qed.

Lemma position_LName_elem_of k ks :
  k ∈ ks -> exists i, position (LName k) (map LName ks) = Some i.
Proof.
  induction ks as [|k' ks IH]; [by intros ?%elem_of_nil|]. cbn.
  case_decide as Hk; [by eauto|].
  intros [->|Hin]%elem_of_cons; [done|].
  destruct (IH Hin) as [i ->]. by eauto.
Qed.

Lemma position_LPos_seq i n :
  i < n -> position (LPos i) (map LPos (seq 0 n)) = Some i.
Proof.
  assert (G : forall n a, i < n ->
            position (LPos (a + i)) (map LPos (seq a n)) = Some i).
  { clear n. intros n. revert i. induction n as [|n IH]; intros i a Hi; [lia|].
    cbn. destruct i as [|i].
    - rewrite Nat.add_0_r. by rewrite decide_True.
    - rewrite decide_False by (intros [=]; lia).
      replace (a + S i) with (S a + i) by lia. rewrite IH by lia. done. }
  intros Hi. exact (G n 0 Hi).
Qed.







(** ** One row per subdivision *)

Lemma dict_get_set {V} k (v : V) kvs : dict_get k (dict_set k v kvs) = Some v.
Proof.
  induction kvs as [|[k' v'] kvs IH]; cbn.
  - by rewrite String.eqb_refl.
  - destruct (String.eqb k' k) eqn:E; cbn; by rewrite E.
Qed.

Lemma admin_row_well_formed feature :
  well_formed feature ->
  exists row,
    admin_row feature = Ok row /\
    (is_Some (rings_of feature) -> populated (dict_get "geometry" row)) /\
    (rings_of feature = None -> dict_get "geometry" row = Some (Val PyNone)).
Proof.
  intros (f & attrs & g & -> & Ha & Hg & Hrings).
  unfold admin_row, rings_of.
  rewrite (py_getitem_dict _ _ _ Ha), (py_getitem_dict _ _ _ Hg), Hg. cbn.
  destruct (dict_get "rings" g) as [rings|] eqn:Hr; cbn.
  - destruct (Hrings rings eq_refl) as (rs & gl & -> & Hgl).
    change (py_iter (PyList rs)) with (Ok rs). cbn [mbind result_bind].
    rewrite Hgl. cbn [mbind result_bind]. eexists. split; [reflexivity|].
    rewrite dict_get_set. split; [by eexists|done].
  - eexists. split; [reflexivity|].
    rewrite dict_get_set. split; [by intros [? ?]|done].
Qed.

Lemma for_each_Forall {A B} (f : A -> result B) xs :
  Forall (fun x => exists y, f x = Ok y) xs -> exists ys, for_each f xs = Ok ys.
Proof.
  induction 1 as [|x xs [y Hy] _ [ys Hys]]; cbn; [by eexists|].
  rewrite Hy. cbn. rewrite Hys. cbn. by eexists.
Qed.

Lemma loc_frame_of_records rows i row k v :
  rows !! i = Some row -> dict_get k row = Some v ->
  loc (frame_of_records rows) (LPos i) (LName k) = Some v.
Proof.
  intros Hi Hk. unfold loc, frame_of_records. cbn [index columns data].
  set (cols := uniq (concat (map (map fst) rows))).
  rewrite position_LPos_seq by (by eapply lookup_lt_Some). cbn.
  destruct (position_LName_elem_of k cols) as [j Hj].
  { apply elem_of_uniq, list_elem_of_In, in_concat.
    exists (map fst row). split.
    - apply in_map, list_elem_of_In. by eapply list_elem_of_lookup_2.
    - apply list_elem_of_In. by eapply dict_get_elem_of. }
  rewrite Hj. cbn. rewrite list_lookup_fmap, Hi. cbn.
  rewrite list_lookup_fmap, (position_LName_Some _ _ _ Hj). cbn.
  unfold cell_of. by rewrite Hk.
Qed.

Lemma get_admin_boundaries_rows url level iso_code w kvs fs :
  service url (clock w) = Responds (Body (PyDict kvs)) ->
  dict_get "features" kvs = Some (PyList fs) ->
  fs <> [] ->
  Forall well_formed fs ->
  exists df,
    fst (get_admin_boundaries url level iso_code w) = Ok (Some df) /\
    length (index df) = length fs /\
    forall i feature, fs !! i = Some feature ->
      (populated (loc df (LPos i) (LName "geometry"))
       <-> is_Some (rings_of feature)) /\
      (rings_of feature = None ->
       loc df (LPos i) (LName "geometry") = Some (Val PyNone)).
Proof.
  intros Hs Hf Hne Hwf.
  destruct (for_each_Forall admin_row fs) as [rows Hrows].
  { eapply Forall_impl; [exact Hwf|]. intros x Hx.
    destruct (admin_row_well_formed x Hx) as (row & Hrow & _). eauto. }
  exists (frame_of_records rows).
  rewrite get_admin_boundaries_run, Hs.
  destruct fs as [|f0 rest]; [done|].
  rewrite (no_features_first _ _ _ Hf).
  unfold admin_rows. rewrite (py_getitem_dict _ _ _ Hf). cbn [mbind result_bind py_iter].
  rewrite Hrows. split; [reflexivity|]. split.
  { cbn [frame_of_records index]. rewrite length_map, length_seq.
    by eapply for_each_length. }
  intros i feature Hi.
  destruct (for_each_lookup _ _ _ _ _ Hrows Hi) as (row & Hrow & Hrow').
  rewrite Forall_forall in Hwf.
  destruct (admin_row_well_formed feature) as (row' & Hrow'' & Hyes & Hno).
  { apply Hwf. by eapply list_elem_of_lookup_2. }
  assert (row' = row) as -> by congruence.
  destruct (rings_of feature) as [rings|] eqn:Hr.
  - destruct Hyes as [u Hu]; [by eexists|].
    rewrite (loc_frame_of_records _ _ _ _ _ Hrow Hu).
    split; [|done]. split; [by eexists|by eexists].
  - rewrite (loc_frame_of_records _ _ _ _ _ Hrow (Hno eq_refl)).
    split; [|done]. split; [by intros [? ?]|by intros [? ?]].
Qed.

(** C4, as the code has it: for a response with at least one feature, all
    of them well formed, [get_admin1_boundaries] and
    [get_admin2_boundaries] return a table with one row per feature, in the
    order of the response; the geometry cell of a row holds a geometry when
    the geometry mapping of its feature has a ['rings'] key, be the list
    under it empty, and [None] when it has not. *)
Theorem C4_one_row_per_feature iso_code w kvs fs :
  service (admin1_url iso_code) (clock w) = Responds (Body (PyDict kvs)) ->
  service (admin2_url iso_code) (clock w) = Responds (Body (PyDict kvs)) ->
  dict_get "features" kvs = Some (PyList fs) ->
  fs <> [] ->
  Forall well_formed fs ->
  exists df1 df2,
    fst (get_admin1_boundaries iso_code w) = Ok (Some df1) /\
    fst (get_admin2_boundaries iso_code w) = Ok (Some df2) /\
    length (index df1) = length fs /\
    length (index df2) = length fs /\
    forall i feature, fs !! i = Some feature ->
      (populated (loc df1 (LPos i) (LName "geometry"))
       <-> is_Some (rings_of feature)) /\
      (populated (loc df2 (LPos i) (LName "geometry"))
       <-> is_Some (rings_of feature)) /\
      (rings_of feature = None ->
       loc df1 (LPos i) (LName "geometry") = Some (Val PyNone) /\
       loc df2 (LPos i) (LName "geometry") = Some (Val PyNone)).
Proof.
  intros Hs1 Hs2 Hf Hne Hwf.
  destruct (get_admin_boundaries_rows _ "1" iso_code _ _ _ Hs1 Hf Hne Hwf)
    as (df1 & H1 & L1 & G1).
  destruct (get_admin_boundaries_rows _ "2" iso_code _ _ _ Hs2 Hf Hne Hwf)
    as (df2 & H2 & L2 & G2).
  exists df1, df2. repeat split; try done;
    try (by apply (G1 i feature)); try (by apply (G2 i feature)).
Qed.

(** ** Rings inside rings *)



(** ** Further properties of the three functions *)

(** X1: a timeout is answered by the first [except] clause: each function
    returns [None] and prints its own timed-out line naming the query, and
    not the generic request-error line, although a [Timeout] is also a
    [RequestException] and the second clause would have caught it. *)
Theorem X1_timeout_has_its_own_line attr val iso_code w m0 m1 m2 :
  service (boundaries_url attr val) (clock w) = TimesOut m0 ->
  service (admin1_url iso_code) (clock w) = TimesOut m1 ->
  service (admin2_url iso_code) (clock w) = TimesOut m2 ->
  get_boundaries attr val w =
    (Ok None, say w ("Request timed out for " +:+ attr +:+ "='" +:+ val +:+ "'")) /\
  get_admin1_boundaries iso_code w =
    (Ok None, say w ("Request timed out for ISO='" +:+ iso_code +:+ "'")) /\
  get_admin2_boundaries iso_code w =
    (Ok None, say w ("Request timed out for ISO='" +:+ iso_code +:+ "'")) /\
  isinstance (mkExn Timeout m0) RequestException = true /\
  isinstance (mkExn Timeout m0) Exception = true.
Proof.
  intros H0 H1 H2. unfold get_admin1_boundaries, get_admin2_boundaries.
  rewrite get_boundaries_run, !get_admin_boundaries_run, H0, H1, H2.
  by repeat split.
Qed.

(** X2: a connection failure, an HTTP error status (raised by
    [raise_for_status], before the body is decoded) and a body that
    requests cannot decode are all answered by the second clause: the
    function prints 'Request error: ' followed by the text of the exception
    and returns [None]. *)
Theorem X2_request_errors_share_one_line attr val iso_code w b msg :
  b = Unreachable msg \/ b = Responds (BadStatus msg) \/
  b = Responds (BadBody false msg) ->
  service (boundaries_url attr val) (clock w) = b ->
  service (admin1_url iso_code) (clock w) = b ->
  service (admin2_url iso_code) (clock w) = b ->
  get_boundaries attr val w = (Ok None, say w ("Request error: " +:+ msg)) /\
  get_admin1_boundaries iso_code w = (Ok None, say w ("Request error: " +:+ msg)) /\
  get_admin2_boundaries iso_code w = (Ok None, say w ("Request error: " +:+ msg)).
Proof.
  intros Hb H0 H1 H2. unfold get_admin1_boundaries, get_admin2_boundaries.
  rewrite get_boundaries_run, !get_admin_boundaries_run, H0, H1, H2.
  by destruct Hb as [-> | [-> | ->]].
Qed.

Lemma get_boundaries_effects attr val w :
  clock (snd (get_boundaries attr val w)) = S (clock w) /\
  ((exists df, fst (get_boundaries attr val w) = Ok (Some df)) /\
   stdout (snd (get_boundaries attr val w)) = stdout w
   \/
   fst (get_boundaries attr val w) = Ok None /\
   exists line, stdout (snd (get_boundaries attr val w)) = stdout w ++ [line]).
Proof.
  rewrite get_boundaries_run.
  destruct (service _ _) as [msg|msg|[msg|legacy msg|res]];
    [| | | |destruct (no_features res) as [[]|e];
            [| destruct (boundaries_frame res) as [df|e] |]];
    (split; [reflexivity|]); cbn; by eauto.
Qed.

Lemma get_admin_boundaries_effects url level iso_code w :
  clock (snd (get_admin_boundaries url level iso_code w)) = S (clock w) /\
  exists line,
    stdout (snd (get_admin_boundaries url level iso_code w)) = stdout w ++ [line].
Proof.
  rewrite get_admin_boundaries_run.
  destruct (service _ _) as [msg|msg|[msg|legacy msg|res]];
    [| | | |destruct (no_features res) as [[]|e];
            [| destruct (admin_rows res) as [rows|e] |]];
    (split; [reflexivity|]); cbn; by eauto.
Qed.

(** X3: whatever happens, a call sends exactly one request (no retry) and
    keeps what was printed before it.  [get_boundaries] prints nothing when
    it returns a table and exactly one line when it returns [None]; the
    admin fetches print exactly one line on every path, success included. *)
Theorem X3_one_request_one_line attr val iso_code w :
  (clock (snd (get_boundaries attr val w)) = S (clock w) /\
   ((exists df, fst (get_boundaries attr val w) = Ok (Some df)) /\
    stdout (snd (get_boundaries attr val w)) = stdout w
    \/
    fst (get_boundaries attr val w) = Ok None /\
    exists line, stdout (snd (get_boundaries attr val w)) = stdout w ++ [line]))
  /\
  (clock (snd (get_admin1_boundaries iso_code w)) = S (clock w) /\
   exists line,
     stdout (snd (get_admin1_boundaries iso_code w)) = stdout w ++ [line])
  /\
  (clock (snd (get_admin2_boundaries iso_code w)) = S (clock w) /\
   exists line,
     stdout (snd (get_admin2_boundaries iso_code w)) = stdout w ++ [line]).
Proof.
  split; [apply get_boundaries_effects|].
  split; apply get_admin_boundaries_effects.
Qed.

Lemma admin_rows_well_formed fs :
  Forall well_formed fs -> exists rows, for_each admin_row fs = Ok rows.
Proof.
  intros Hwf. apply for_each_Forall.
  eapply Forall_impl; [exact Hwf|]. intros x Hx.
  destruct (admin_row_well_formed x Hx) as (row & Hrow & _). eauto.
Qed.

Lemma get_admin_boundaries_success url level iso_code w kvs fs rows :
  service url (clock w) = Responds (Body (PyDict kvs)) ->
  dict_get "features" kvs = Some (PyList fs) ->
  fs <> [] ->
  for_each admin_row fs = Ok rows ->
  get_admin_boundaries url level iso_code w =
  (Ok (Some (frame_of_records rows)),
   say w ("Found " +:+ pretty (length fs) +:+ " admin " +:+ level
          +:+ " subdivisions for " +:+ iso_code)).
Proof.
  intros Hs Hf Hne Hrows. rewrite get_admin_boundaries_run, Hs.
  destruct fs as [|f0 rest]; [done|].
  rewrite (no_features_first _ _ _ Hf).
  unfold admin_rows. rewrite (py_getitem_dict _ _ _ Hf).
  cbn [mbind result_bind py_iter]. rewrite Hrows.
  by rewrite (for_each_length _ _ _ Hrows).
Qed.

(** X4: on success an admin fetch announces what it returns: the one line
    it prints is 'Found N admin L subdivisions for <iso_code>', where N is
    the number of features of the response, in decimal, and L is 1 or 2. *)
Theorem X4_found_line_counts_the_features iso_code w kvs fs :
  service (admin1_url iso_code) (clock w) = Responds (Body (PyDict kvs)) ->
  service (admin2_url iso_code) (clock w) = Responds (Body (PyDict kvs)) ->
  dict_get "features" kvs = Some (PyList fs) ->
  fs <> [] ->
  Forall well_formed fs ->
  exists df,
    length (index df) = length fs /\
    get_admin1_boundaries iso_code w =
      (Ok (Some df),
       say w ("Found " +:+ pretty (length fs) +:+ " admin 1 subdivisions for "
              +:+ iso_code)) /\
    get_admin2_boundaries iso_code w =
      (Ok (Some df),
       say w ("Found " +:+ pretty (length fs) +:+ " admin 2 subdivisions for "
              +:+ iso_code)).
Proof.
  intros Hs1 Hs2 Hf Hne Hwf.
  destruct (admin_rows_well_formed fs Hwf) as [rows Hrows].
  exists (frame_of_records rows). split.
  { cbn [frame_of_records index]. rewrite length_map, length_seq.
    by eapply for_each_length. }
  split; by eapply get_admin_boundaries_success.
Qed.

Lemma for_each_raises {A B} (f : A -> result B) xs x :
  x ∈ xs -> (exists e, f x = Raise e) -> exists e, for_each f xs = Raise e.
Proof.
  intros Hin [e He]. induction xs as [|x' xs IH]; [by apply elem_of_nil in Hin|].
  cbn. destruct (f x') as [y|e'] eqn:Hx'; [|by eexists].
  apply elem_of_cons in Hin as [->|Hin]; [congruence|].
  destruct (IH Hin) as [e'' ->]. by eexists.
Qed.

(** X5: the admin fetches return all rows or none: one feature without an
    ['attributes'] key or without a ['geometry'] key, anywhere in the
    response, ends the whole call in the catch-all clause, and [None] is
    returned where the other features would have given rows. *)
Theorem X5_one_bad_feature_voids_the_table iso_code w kvs fs f :
  service (admin1_url iso_code) (clock w) = Responds (Body (PyDict kvs)) ->
  service (admin2_url iso_code) (clock w) = Responds (Body (PyDict kvs)) ->
  dict_get "features" kvs = Some (PyList fs) ->
  PyDict f ∈ fs ->
  dict_get "attributes" f = None \/ dict_get "geometry" f = None ->
  exists msg,
    get_admin1_boundaries iso_code w =
      (Ok None, say w ("Error processing data: " +:+ msg)) /\
    get_admin2_boundaries iso_code w =
      (Ok None, say w ("Error processing data: " +:+ msg)).
Proof.
  intros Hs1 Hs2 Hf Hin Hbad.
  destruct (for_each_raises admin_row fs (PyDict f) Hin) as [e He].
  { unfold admin_row, py_getitem.
    destruct (dict_get "attributes" f) as [attrs|]; [|by eexists]. cbn.
    destruct Hbad as [? | ->]; [done|by eexists]. }
  exists (exn_msg e).
  unfold get_admin1_boundaries, get_admin2_boundaries.
  rewrite !get_admin_boundaries_run, Hs1, Hs2.
  destruct fs as [|f0 rest]; [by apply elem_of_nil in Hin|].
  rewrite (no_features_first _ _ _ Hf).
  unfold admin_rows. rewrite (py_getitem_dict _ _ _ Hf).
  cbn [mbind result_bind py_iter]. by rewrite He.
Qed.





Lemma no_features_outcomes attr val iso_code w res :
  service (boundaries_url attr val) (clock w) = Responds (Body res) ->
  service (admin1_url iso_code) (clock w) = Responds (Body res) ->
  service (admin2_url iso_code) (clock w) = Responds (Body res) ->
  no_features res = Ok true ->
  get_boundaries attr val w =
    (Ok None, say w ("No features found for " +:+ attr +:+ "='" +:+ val +:+ "'")) /\
  get_admin1_boundaries iso_code w =
    (Ok None, say w ("No admin 1 features found for ISO='" +:+ iso_code +:+ "'")) /\
  get_admin2_boundaries iso_code w =
    (Ok None, say w ("No admin 2 features found for ISO='" +:+ iso_code +:+ "'")).
Proof.
  intros H0 H1 H2 Hn. unfold get_admin1_boundaries, get_admin2_boundaries.
  by rewrite get_boundaries_run, !get_admin_boundaries_run, H0, H1, H2, Hn.
Qed.

Lemma no_features_raises attr val iso_code w res c msg :
  service (boundaries_url attr val) (clock w) = Responds (Body res) ->
  service (admin1_url iso_code) (clock w) = Responds (Body res) ->
  service (admin2_url iso_code) (clock w) = Responds (Body res) ->
  no_features res = raise c msg ->
  get_boundaries attr val w =
    (Ok None, say w ("Error processing data: " +:+ msg)) /\
  get_admin1_boundaries iso_code w =
    (Ok None, say w ("Error processing data: " +:+ msg)) /\
  get_admin2_boundaries iso_code w =
    (Ok None, say w ("Error processing data: " +:+ msg)).
Proof.
  intros H0 H1 H2 Hn. unfold get_admin1_boundaries, get_admin2_boundaries.
  by rewrite get_boundaries_run, !get_admin_boundaries_run, H0, H1, H2, Hn.
Qed.

(** X7: the test ['features' not in res or len(res['features']) == 0] also
    takes the no-features path for bodies that are no JSON object and for
    empty values that are no list: a JSON array without the string
    'features' among its items, a JSON string without 'features' inside it,
    and an object whose ['features'] entry is an empty string or an empty
    object all make the three functions print their no-features line and
    return [None]. *)
Theorem X7_no_features_path_for_odd_bodies attr val iso_code w res :
  service (boundaries_url attr val) (clock w) = Responds (Body res) ->
  service (admin1_url iso_code) (clock w) = Responds (Body res) ->
  service (admin2_url iso_code) (clock w) = Responds (Body res) ->
  (exists xs, res = PyList xs /\ existsb (is_str "features") xs = false) \/
  (exists s, res = PyStr s /\ is_substring "features" s = false) \/
  (exists kvs, res = PyDict kvs /\
     (dict_get "features" kvs = Some (PyStr "") \/
      dict_get "features" kvs = Some (PyDict []))) ->
  get_boundaries attr val w =
    (Ok None, say w ("No features found for " +:+ attr +:+ "='" +:+ val +:+ "'")) /\
  get_admin1_boundaries iso_code w =
    (Ok None, say w ("No admin 1 features found for ISO='" +:+ iso_code +:+ "'")) /\
  get_admin2_boundaries iso_code w =
    (Ok None, say w ("No admin 2 features found for ISO='" +:+ iso_code +:+ "'")).
Proof.
  intros H0 H1 H2 Hres. apply (no_features_outcomes _ _ _ _ res); try done.
  unfold no_features, py_contains, py_getitem.
  destruct Hres as [(xs & -> & Hx) | [(s & -> & Hs) | (kvs & -> & [Hk | Hk])]].
  - cbn. by rewrite Hx.
  - cbn. by rewrite Hs.
  - by rewrite Hk.
  - by rewrite Hk.
Qed.

(** X8: a body that decodes to [null], a boolean or a number cannot be
    searched for 'features', and an object whose ['features'] entry is one
    of these has no length: in both cases the [TypeError] is caught by the
    catch-all clause, and the three functions print 'Error processing
    data: ' with Python's message and return [None]. *)
Theorem X8_scalars_are_processing_errors attr val iso_code w res :
  service (boundaries_url attr val) (clock w) = Responds (Body res) ->
  service (admin1_url iso_code) (clock w) = Responds (Body res) ->
  service (admin2_url iso_code) (clock w) = Responds (Body res) ->
  (scalar res ->
   let line := "Error processing data: argument of type '"
               +:+ type_name res +:+ "' is not iterable" in
   get_boundaries attr val w = (Ok None, say w line) /\
   get_admin1_boundaries iso_code w = (Ok None, say w line) /\
   get_admin2_boundaries iso_code w = (Ok None, say w line)) /\
  (forall kvs v,
     res = PyDict kvs -> dict_get "features" kvs = Some v -> scalar v ->
     let line := "Error processing data: object of type '"
                 +:+ type_name v +:+ "' has no len()" in
     get_boundaries attr val w = (Ok None, say w line) /\
     get_admin1_boundaries iso_code w = (Ok None, say w line) /\
     get_admin2_boundaries iso_code w = (Ok None, say w line)).
Proof.
  intros H0 H1 H2. split.
  - intros Hsc line. eapply (no_features_raises _ _ _ _ res); try done.
    by destruct res.
  - intros kvs v -> Hk Hsc line.
    eapply (no_features_raises _ _ _ _ (PyDict kvs)); try done.
    unfold no_features, py_contains, py_getitem. rewrite Hk. cbn.
    by destruct v.
Qed.

(** ** The table of a feature, cell by cell *)



Lemma dict_get_None {V} k (kvs : list (string * V)) :
  k ∉ map fst kvs -> dict_get k kvs = None.
Proof.
  induction kvs as [|[k' v'] kvs IH]; [done|]. cbn. intros Hk.
  destruct (String.eqb_spec k' k) as [->|_].
  - exfalso. apply Hk. by left.
  - apply IH. intros Hin. apply Hk. by right.
Qed.






Lemma for_each_stops {A B} (f : A -> result B) pre x post ys e :
  for_each f pre = Ok ys -> f x = Raise e ->
  for_each f (pre ++ x :: post) = Raise e.
Proof.
  revert ys. induction pre as [|p pre IH]; intros ys; cbn.
  - intros _ ->. done.
  - destruct (f p) as [y|]; [cbn|done].
    destruct (for_each f pre) as [ys'|] eqn:Hpre; [cbn|done].
    intros _ Hx. by rewrite (IH ys' eq_refl Hx).
Qed.

(** X11: [get_boundaries] has no partial geometry: when shapely refuses one
    ring of the first feature, the rings before it having made polygons,
    the call prints 'Error processing data: ' with the text of that
    exception and returns [None], attributes included. *)
Theorem X11_one_bad_ring_voids_the_country
    attr val w kvs rest attrs g pre r post gpre e :
  service (boundaries_url attr val) (clock w) = Responds (Body (PyDict kvs)) ->
  dict_get "features" kvs
    = Some (PyList (PyDict [("attributes", PyDict attrs); ("geometry", PyDict g)]
                    :: rest)) ->
  dict_get "rings" g = Some (PyList (pre ++ r :: post)) ->
  for_each Polygon pre = Ok gpre ->
  Polygon r = Raise e ->
  get_boundaries attr val w =
  (Ok None, say w ("Error processing data: " +:+ exn_msg e)).
Proof.
  intros Hs Hf Hr Hpre He.
  rewrite (get_boundaries_first _ _ _ _ _ _ Hs Hf).
  unfold feature_frame.
  change (from_dict _) with
    (Ok (frame_of_columns [("attributes", attrs); ("geometry", g)])).
  change (py_getitem (PyDict [_; _]) "geometry") with (Ok (PyDict g)).
  cbn [mbind result_bind].
  rewrite (py_getitem_dict _ _ _ Hr). cbn [mbind result_bind py_len].
  by rewrite for_each_index, (for_each_stops _ _ _ _ _ _ Hpre He).
Qed.

End Fetch.


(** ** The claims at concrete responses *)

Lemma C6_witness :
  fst (get_boundaries (answering (fixture [])) no_frame no_polygon
         "ISO_A3" "ATL" w0) = Ok None.
Proof.
  destruct (C6_no_match_returns_none (answering (fixture [])) no_frame
              no_polygon "ISO_A3" "ATL" w0 [("features", PyList [])]
              eq_refl eq_refl) as (line & -> & _).
  reflexivity.
Defined.

Lemma C10_witness :
  get_boundaries (answering (PyDict [("error", PyDict [("code", PyNum 400)])]))
    no_frame no_polygon "ISO_A3" "HTI" w0
  = (Ok None, say w0 "No features found for ISO_A3='HTI'").
Proof.
  apply (C10_missing_features_key
           (answering (PyDict [("error", PyDict [("code", PyNum 400)])]))
           no_frame no_polygon [("error", PyDict [("code", PyNum 400)])]).
  - left. reflexivity.
  - reflexivity.
Defined.

Lemma C8_witness :
  fst (get_boundaries (answering (fixture [haiti [square 0 1]])) no_frame
         no_polygon "ISO_A3" "HTI"
         (snd (get_boundaries (answering (fixture [haiti [square 0 1]]))
                 no_frame no_polygon "ISO_A3" "HTI" w0)))
  = fst (get_boundaries (answering (fixture [haiti [square 0 1]])) no_frame
           no_polygon "ISO_A3" "HTI" w0).
Proof.
  apply (C8_same_response_same_table
           (answering (fixture [haiti [square 0 1]])) no_frame no_polygon
           "ISO_A3" "HTI" "HTI" w0); reflexivity.
Defined.

Lemma C5_witness :
  fst (get_boundaries
         (changing (fixture [haiti [square 0 1]; ringless])
                   (fixture [haiti [square 0 1]]))
         no_frame no_polygon "ISO_A3" "HTI" w0)
  = fst (get_boundaries
           (changing (fixture [haiti [square 0 1]; ringless])
                     (fixture [haiti [square 0 1]]))
           no_frame no_polygon "ISO_A3" "HTI" (tick w0)).
Proof.
  apply (C5_only_the_first_feature
           (changing (fixture [haiti [square 0 1]; ringless])
                     (fixture [haiti [square 0 1]]))
           no_frame no_polygon "ISO_A3" "HTI" w0 (tick w0)
           [("features", PyList [haiti [square 0 1]; ringless])]
           [("features", PyList [haiti [square 0 1]])]
           (haiti [square 0 1]) [ringless] []); reflexivity.
Defined.

Lemma C9_witness :
  exists msg,
    get_boundaries
      (answering (fixture [PyDict [("attributes", PyDict haiti_attrs)]]))
      no_frame no_polygon "ISO_A3" "HTI" w0
    = (Ok None, say w0 ("Error processing data: " +:+ msg)).
Proof.
  apply (C9_missing_geometry_is_a_processing_error
           (answering (fixture [PyDict [("attributes", PyDict haiti_attrs)]]))
           no_frame no_polygon "ISO_A3" "HTI" w0
           [("features", PyList [PyDict [("attributes", PyDict haiti_attrs)]])]
           [("attributes", PyDict haiti_attrs)] []).
  - reflexivity.
  - reflexivity.
  - left. reflexivity.
Defined.




Lemma haiti_well_formed rings gl :
  for_each (Polygon no_polygon) rings = Ok gl ->
  well_formed no_polygon (haiti rings).
Proof.
  intros Hgl. eexists _, _, _. repeat split; try reflexivity.
  intros r [= <-]. by eexists _, _.
Defined.

Lemma ringless_well_formed : well_formed no_polygon ringless.
Proof.
  eexists _, _, _. repeat split; try reflexivity. intros r [=].
Defined.

Lemma C4_witness :
  exists df,
    fst (get_admin1_boundaries (answering (fixture [haiti [square 0 1]; ringless]))
           no_polygon "HTI" w0) = Ok (Some df) /\
    length (index df) = 2 /\
    populated (loc df (LPos 0) (LName "geometry")) /\
    loc df (LPos 1) (LName "geometry") = Some (Val PyNone).
Proof.
  destruct (C4_one_row_per_feature
              (answering (fixture [haiti [square 0 1]; ringless])) no_polygon
              "HTI" w0 [("features", PyList [haiti [square 0 1]; ringless])]
              [haiti [square 0 1]; ringless]
              eq_refl eq_refl eq_refl ltac:(discriminate)
              ltac:(constructor;
                    [exact (haiti_well_formed [square 0 1]
                              [region (square_pts 0 1)] eq_refl)
                    |constructor; [exact ringless_well_formed|constructor]]))
    as (df1 & df2 & H1 & _ & L1 & _ & G).
  exists df1. split; [exact H1|]. split; [exact L1|]. split.
  - apply (G 0 (haiti [square 0 1]) eq_refl). by eexists.
  - apply (G 1 ringless eq_refl). reflexivity.
Defined.

(** ** Where the stated claims fail *)



(** C4 as stated fails: a feature whose geometry has a ['rings'] key with
    an empty list carries no ring, yet its row holds a geometry (the empty
    union), not [None]. *)
Lemma C4_counterexample :
  exists df,
    fst (get_admin1_boundaries (answering (fixture [haiti []])) no_polygon
           "HTI" w0) = Ok (Some df) /\
    length (index df) = 1 /\
    ring_count (haiti []) = 0 /\
    ~ (populated (loc df (LPos 0) (LName "geometry"))
       <-> 0 < ring_count (haiti [])).
Proof.
  destruct (get_admin_boundaries_rows
              (answering (fixture [haiti []])) no_polygon
              (admin1_url "HTI") "1" "HTI" w0
              [("features", PyList [haiti []])] [haiti []]
              eq_refl eq_refl ltac:(discriminate)
              ltac:(constructor;
                    [exact (haiti_well_formed [] [] eq_refl)|constructor]))
    as (df & Hrun & Hlen & G).
  exists df. split; [exact Hrun|]. split; [exact Hlen|].
  split; [reflexivity|].
  assert (Hp : populated (loc df (LPos 0) (LName "geometry"))).
  { apply (G 0 (haiti []) eq_refl). by eexists. }
  intros [Hlt _]. specialize (Hlt Hp). vm_compute in Hlt. lia.
Qed.

(** ** The further properties at concrete responses *)

Lemma X1_witness :
  get_boundaries (meeting (TimesOut "read timed out")) no_frame no_polygon
    "ISO_A3" "HTI" w0
  = (Ok None, say w0 "Request timed out for ISO_A3='HTI'").
Proof.
  apply (X1_timeout_has_its_own_line (meeting (TimesOut "read timed out"))
           no_frame no_polygon "ISO_A3" "HTI" "HTI" w0
           "read timed out" "read timed out" "read timed out"
           eq_refl eq_refl eq_refl).
Defined.

Lemma X2_witness :
  get_admin1_boundaries (meeting (Responds (BadStatus "404 Client Error")))
    no_polygon "HTI" w0
  = (Ok None, say w0 "Request error: 404 Client Error").
Proof.
  apply (X2_request_errors_share_one_line
           (meeting (Responds (BadStatus "404 Client Error")))
           no_frame no_polygon "ISO_A3" "HTI" "HTI" w0
           (Responds (BadStatus "404 Client Error")) "404 Client Error"
           (or_intror (or_introl eq_refl)) eq_refl eq_refl eq_refl).
Defined.

Lemma two_features_well_formed :
  Forall (well_formed no_polygon) [haiti [square 0 1]; ringless].
Proof.
  constructor;
    [exact (haiti_well_formed [square 0 1] [region (square_pts 0 1)] eq_refl)
    |constructor; [exact ringless_well_formed|constructor]].
Defined.

Lemma X4_witness :
  snd (get_admin1_boundaries (answering (fixture [haiti [square 0 1]; ringless]))
         no_polygon "HTI" w0)
  = say w0 "Found 2 admin 1 subdivisions for HTI".
Proof.
  destruct (X4_found_line_counts_the_features
              (answering (fixture [haiti [square 0 1]; ringless])) no_polygon
              "HTI" w0 [("features", PyList [haiti [square 0 1]; ringless])]
              [haiti [square 0 1]; ringless]
              eq_refl eq_refl eq_refl ltac:(discriminate)
              two_features_well_formed)
    as (df & _ & -> & _).
  reflexivity.
Defined.

Lemma X5_witness :
  exists msg,
    get_admin1_boundaries
      (answering (fixture [haiti [square 0 1];
                           PyDict [("attributes", PyDict haiti_attrs)]]))
      no_polygon "HTI" w0
    = (Ok None, say w0 ("Error processing data: " +:+ msg)).
Proof.
  destruct (X5_one_bad_feature_voids_the_table
              (answering (fixture [haiti [square 0 1];
                                   PyDict [("attributes", PyDict haiti_attrs)]]))
              no_polygon "HTI" w0
              [("features", PyList [haiti [square 0 1];
                                    PyDict [("attributes", PyDict haiti_attrs)]])]
              [haiti [square 0 1]; PyDict [("attributes", PyDict haiti_attrs)]]
              [("attributes", PyDict haiti_attrs)]
              eq_refl eq_refl eq_refl
              ltac:(right; left)
              (or_intror eq_refl))
    as (msg & H1 & _).
  exists msg. exact H1.
Defined.


Lemma X7_witness :
  get_boundaries (answering (PyList [])) no_frame no_polygon "ISO_A3" "HTI" w0
  = (Ok None, say w0 "No features found for ISO_A3='HTI'").
Proof.
  apply (X7_no_features_path_for_odd_bodies (answering (PyList []))
           no_frame no_polygon "ISO_A3" "HTI" "HTI" w0 (PyList [])
           eq_refl eq_refl eq_refl).
  left. exists []. split; reflexivity.
Defined.

Lemma X8_witness :
  get_boundaries (answering PyNone) no_frame no_polygon "ISO_A3" "HTI" w0
  = (Ok None,
     say w0 "Error processing data: argument of type 'NoneType' is not iterable").
Proof.
  apply (X8_scalars_are_processing_errors (answering PyNone)
           no_frame no_polygon "ISO_A3" "HTI" "HTI" w0 PyNone
           eq_refl eq_refl eq_refl).
  exact I.
Defined.






Lemma X11_witness :
  get_boundaries
    (answering (fixture [haiti [square 0 1;
                                PyList [PyList [PyNum 0; PyNum 0];
                                        PyList [PyNum 1; PyNum 1]]]]))
    no_frame no_polygon "ISO_A3" "HTI" w0
  = (Ok None,
     say w0 "Error processing data: A linearring requires at least 4 coordinates.").
Proof.
  apply (X11_one_bad_ring_voids_the_country
           (answering (fixture [haiti [square 0 1;
                                       PyList [PyList [PyNum 0; PyNum 0];
                                               PyList [PyNum 1; PyNum 1]]]]))
           no_frame no_polygon "ISO_A3" "HTI" w0
           [("features",
             PyList [haiti [square 0 1;
                            PyList [PyList [PyNum 0; PyNum 0];
                                    PyList [PyNum 1; PyNum 1]]]])]
           [] haiti_attrs
           [("rings", PyList [square 0 1;
                              PyList [PyList [PyNum 0; PyNum 0];
                                      PyList [PyNum 1; PyNum 1]]])]
           [square 0 1]
           (PyList [PyList [PyNum 0; PyNum 0]; PyList [PyNum 1; PyNum 1]])
           [] [region (square_pts 0 1)]
           (mkExn ValueError "A linearring requires at least 4 coordinates.")
           eq_refl eq_refl eq_refl eq_refl eq_refl).
Defined.
